(** * GLM_Example.py: a prompt runner against a chat-completion collaborator

    The script builds an SDK client, submits one chat-completion request with
    literal keyword arguments, reads [response.choices[0].message.content]
    and prints it.  The SDK ([zai]) is not part of the repository: it is the
    collaborator, taken here as a parameter (a test double with a private
    state), and the script is embedded as a program in a state-and-exception
    monad over the process' world (standard output, the sequence of steps
    performed, the collaborator's state, the command line and the
    environment).  Standard output is first a text stream; where the bytes
    matter, the same script is run over the encoder the interpreter picks
    from the environment. *)

From Stdlib Require Import String Ascii List ZArith Bool Lia QArith Qabs.
From Stdlib Require Import Floats.PrimFloat Floats.FloatOps Floats.SpecFloat.
Import ListNotations.
Open Scope string_scope.
Open Scope Z_scope.

(** ** The fragment of Python's data the script uses *)

Module Py.

(** Values that occur in the call's keyword arguments: [str], [float]
    (an IEEE 754 binary64, as in CPython), [list] and [dict] literals.  A
    dict literal keeps its insertion order, so it is an association list. *)
#[warnings="-register-all"]
Inductive value : Type :=
| VNone
| VStr (s : string)
| VFloat (f : float)
| VList (l : list value)
| VDict (d : list (string * value)).

(** Keyword arguments of a call, in the order they are written. *)
Definition kwargs : Type := list (string * value).

(** [d.get(k)] on a dict or on keyword arguments. *)
Fixpoint dict_get (d : list (string * value)) (k : string) : option value :=
  match d with
  | [] => None
  | (k', v) :: d' => if String.eqb k' k then Some v else dict_get d' k
  end.

(** The names of the keyword arguments. *)
Definition keys (d : list (string * value)) : list string := map fst d.

(** [l[i]] on a sequence: a negative index counts from the end, and an
    index outside the sequence has no element ([IndexError]). *)
Definition getitem {A : Type} (l : list A) (i : Z) : option A :=
  let n := Z.of_nat (length l) in
  let j := if i <? 0 then i + n else i in
  if (0 <=? j) && (j <? n) then nth_error l (Z.to_nat j) else None.

(** The line feed [print] ends its output with. *)
Definition LF : string := String (ascii_of_nat 10) EmptyString.

End Py.

Import Py.

(** ** The collaborator's objects *)

(** The client object, bound to the credential it was constructed with. *)
Record Client : Type := mkClient { client_api_key : string }.

Record Message : Type := mkMessage {
  role : string;
  content : string
}.

Record Choice : Type := mkChoice {
  index : Z;
  finish_reason : string;
  message : Message
}.

Record Usage : Type := mkUsage {
  prompt_tokens : Z;
  completion_tokens : Z;
  total_tokens : Z
}.

(** The response object: besides [choices] it carries an identifier and the
    token usage. *)
Record Completion : Type := mkCompletion {
  completion_id : string;
  choices : list Choice;
  usage : Usage
}.

(** What terminates the script abnormally: the [IndexError] of the script's
    own subscript, or an exception [e] raised by the collaborator (of a type
    [E] the script knows nothing about, whatever its Python class). *)
Inductive exn (E : Type) : Type :=
| IndexError
| Fault (e : E).
Arguments IndexError {E}.
Arguments Fault {E} e.

(** A test double for [client.chat.completions.create]: from its private
    state, the client and the keyword arguments, it steps its state and
    returns a response or signals a fault. *)
Record Collaborator (E S : Type) : Type := mkCollaborator {
  create : S -> Client -> kwargs -> S * (E + Completion)
}.
Arguments create {E S} _ _ _ _.
Arguments mkCollaborator {E S} _.

(** ** The process' world *)

(** The steps a run performs, as an observer of the process sees them. *)
Inductive event : Type :=
| EvConstruct (api_key : string)
| EvCreate (c : Client) (kw : kwargs)
| EvSubscript (i : Z)
| EvPrint (s : string).

Record World (S : Type) : Type := mkWorld {
  argv : list string;
  environ : list (string * string);
  stdout : string;
  trace : list event;
  mock : S
}.
Arguments mkWorld {S} _ _ _ _ _.
Arguments argv {S} _.
Arguments environ {S} _.
Arguments stdout {S} _.
Arguments trace {S} _.
Arguments mock {S} _.

Definition log {S : Type} (ev : event) (w : World S) : World S :=
  mkWorld (argv w) (environ w) (stdout w) (trace w ++ [ev]) (mock w).

Definition write {S : Type} (s : string) (w : World S) : World S :=
  mkWorld (argv w) (environ w) (stdout w ++ s) (trace w) (mock w).

Definition set_mock {S : Type} (s : S) (w : World S) : World S :=
  mkWorld (argv w) (environ w) (stdout w) (trace w) s.

(** The world a process starts in: nothing written, nothing done. *)
Definition boot {S : Type} (args : list string) (env : list (string * string))
    (s0 : S) : World S :=
  mkWorld args env EmptyString [] s0.

(** ** The monad of the script: state passing plus exceptions *)

Definition M (E S A : Type) : Type := World S -> World S * (exn E + A).

Definition ret {E S A : Type} (a : A) : M E S A := fun w => (w, inr a).

Definition raise {E S A : Type} (x : exn E) : M E S A := fun w => (w, inl x).

Definition bind {E S A B : Type} (m : M E S A) (k : A -> M E S B) : M E S B :=
  fun w =>
    match m w with
    | (w', inl x) => (w', inl x)
    | (w', inr a) => k a w'
    end.

Notation "x <- m ;; k" := (bind m (fun x => k))
  (at level 61, m at next level, right associativity).

(** The requests the collaborator received, in order. *)
Fixpoint submitted (t : list event) : list (Client * kwargs) :=
  match t with
  | [] => []
  | EvCreate c kw :: t' => (c, kw) :: submitted t'
  | _ :: t' => submitted t'
  end.

(** The subscript accesses performed, in order. *)
Fixpoint subscripts (t : list event) : list Z :=
  match t with
  | [] => []
  | EvSubscript i :: t' => i :: subscripts t'
  | _ :: t' => subscripts t'
  end.

(** The kinds of step of the prompt runner. *)
Inductive step : Type := Construct | Submit | Extract | Print.

Definition step_of (ev : event) : step :=
  match ev with
  | EvConstruct _ => Construct
  | EvCreate _ _ => Submit
  | EvSubscript _ => Extract
  | EvPrint _ => Print
  end.

(** ** The script *)

Section Script.

Context {E S : Type}.

(** The test double standing for the SDK. *)
Variable sdk : Collaborator E S.

(** The credential literal of line 4.  It is a secret and no property of
    the script depends on its value, so it is kept abstract. *)
Variable api_key : string.

(** One step becomes visible in the trace. *)
Definition tick (ev : event) : M E S unit :=
  fun w => (log ev w, inr tt).

(** [sys.stdout.write(s)] *)
Definition stdout_write (s : string) : M E S unit :=
  fun w => (write s w, inr tt).

(** The collaborator takes one step from its current state. *)
Definition call (client : Client) (kw : kwargs) : M E S (E + Completion) :=
  fun w =>
    let sr := create sdk (mock w) client kw in
    (set_mock (fst sr) w, inr (snd sr)).

(** [ZhipuAiClient(api_key=...)]: the constructor binds the credential to
    the client object and validates nothing. *)
Definition ZhipuAiClient (key : string) : M E S Client :=
  _ <- tick (EvConstruct key) ;;
  ret (mkClient key).

(** [client.chat.completions.create(...)] with keyword arguments [kw]: one
    call of the collaborator; its fault, if any, is raised as it is. *)
Definition chat_completions_create (client : Client) (kw : kwargs)
    : M E S Completion :=
  _ <- tick (EvCreate client kw) ;;
  r <- call client kw ;;
  match r with
  | inl e => raise (Fault e)
  | inr response => ret response
  end.

(** [l[i]], raising [IndexError] outside the sequence. *)
Definition subscript {A : Type} (l : list A) (i : Z) : M E S A :=
  _ <- tick (EvSubscript i) ;;
  match getitem l i with
  | Some a => ret a
  | None => raise IndexError
  end.

(** [print(s)] for a string [s]: the string, then a line feed. *)
Definition print (s : string) : M E S unit :=
  _ <- tick (EvPrint s) ;;
  _ <- stdout_write s ;;
  stdout_write LF.

(** Lines 8 to 19: the keyword arguments of the call. *)
Definition model : string := "glm-4.7".

Definition messages : value :=
  VList [
    VDict [
      ("role", VStr "system");
      ("content", VStr "你是一个有用的AI助手。")
    ];
    VDict [
      ("role", VStr "user");
      ("content", VStr "你好，请介绍一下自己。")
    ]
  ].

#[warnings="-inexact-float"]
Definition temperature : float := 0.6%float.

Definition request : kwargs :=
  [ ("model", VStr model);
    ("messages", messages);
    ("temperature", VFloat temperature) ].

(** The module body. *)
Definition GLM_Example : M E S unit :=
  client <- ZhipuAiClient api_key ;;
  response <- chat_completions_create client request ;;
  choice <- subscript (choices response) 0 ;;
  print (content (message choice)).

(** One run of the script as a process: from the command line, the
    environment and the collaborator's state to the final world and the
    way the process ends. *)
Definition run (args : list string) (env : list (string * string)) (s0 : S)
    : World S * (exn E + unit) :=
  GLM_Example (boot args env s0).

End Script.

Arguments GLM_Example {E S} sdk api_key.
Arguments run {E S} sdk api_key args env s0.

(** The keyword arguments of the requests a run submitted, in order. *)
Definition requests_of_run {E S : Type} (sdk : Collaborator E S)
    (api_key : string) (args : list string) (env : list (string * string))
    (s0 : S) : list kwargs :=
  map snd (submitted (trace (fst (run sdk api_key args env s0)))).


(** Whether the process ended normally (exit status zero). *)
Definition exits_normally {E A : Type} (r : exn E + A) : bool :=
  match r with
  | inr _ => true
  | inl _ => false
  end.

(** How far along the four steps a run got, by the way it ended: all four
    when it ended normally, three when the subscript raised, two when the
    collaborator faulted. *)
Definition steps_reached {E A : Type} (r : exn E + A) : nat :=
  match r with
  | inr _ => 4
  | inl IndexError => 3
  | inl (Fault _) => 2
  end.

(** The exact rational a finite binary64 stands for. *)
Definition float_to_Q (f : float) : option Q :=
  match Prim2SF f with
  | S754_zero _ => Some 0%Q
  | S754_finite s m e =>
      Some ((if s then - inject_Z (Z.pos m) else inject_Z (Z.pos m)) * Qpower 2 e)%Q
  | S754_infinity _ => None
  | S754_nan => None
  end.

(** ** What the collaborator is handed *)

(** A collaborator that behaves as [sdk] and keeps, beside the state of
    [sdk], the calls it received, in the order it received them. *)
Definition recording {E S : Type} (sdk : Collaborator E S)
    : Collaborator E (S * list (Client * kwargs)) :=
  mkCollaborator (fun (st : S * list (Client * kwargs)) c kw =>
    let sr := create sdk (fst st) c kw in
    ((fst sr, (snd st ++ [(c, kw)])%list), snd sr)).

(** The calls the collaborator received during a run: what [recording]
    holds at the end of a run that started with nothing recorded. *)
Definition received {E S : Type} (sdk : Collaborator E S)
    (api_key : string) (args : list string) (env : list (string * string))
    (s0 : S) : list (Client * kwargs) :=
  snd (mock (fst (run (recording sdk) api_key args env (s0, [])))).

(** ** Standard output as a byte stream

    [sys.stdout] is a text stream over a byte stream: every write encodes
    its text with the encoder the interpreter chose at start-up, from the
    environment.  Texts are held as their UTF-8 bytes. *)

(** The encoder of a text stream, error handler included: the bytes of a
    text, or nothing when encoding it raises [UnicodeEncodeError]. *)
Definition encoder : Type := string -> option string.

(** UTF-8 encodes every text. *)
Definition utf_8 : encoder := fun s => Some s.

Definition is_ascii (a : ascii) : bool :=
  match a with
  | Ascii _ _ _ _ _ _ _ b7 => negb b7
  end.

(** ASCII with the handler [strict] encodes the texts made of ASCII
    characters only. *)
Definition ascii_strict : encoder :=
  fun s => if forallb is_ascii (list_ascii_of_string s) then Some s else None.

(** [os.environ.get(k)] as the interpreter sees the environment. *)
Fixpoint env_get (env : list (string * string)) (k : string) : option string :=
  match env with
  | [] => None
  | (k', v) :: env' => if String.eqb k' k then Some v else env_get env' k
  end.

(** The encoder of [sys.stdout]: a non-empty [PYTHONIOENCODING] names it
    (codec and error handler) in the codec registry [codecs] (with a name the
    registry does not have the
    interpreter stops before the script's first line); without it, it is the
    [default] the interpreter derives from the rest of the environment
    (locale, UTF-8 mode). *)
Definition stdout_encoder (codecs : string -> option encoder)
    (default : list (string * string) -> encoder)
    (env : list (string * string)) : option encoder :=
  match env_get env "PYTHONIOENCODING" with
  | None => Some (default env)
  | Some name =>
      if String.eqb name EmptyString then Some (default env) else codecs name
  end.

(** What the script can end with besides [IndexError], once the byte stream
    is in view: an exception of the collaborator, or the text stream's
    [UnicodeEncodeError]. *)
Inductive raised (E : Type) : Type :=
| Collab (e : E)
| UnicodeEncodeError.
Arguments Collab {E} e.
Arguments UnicodeEncodeError {E}.

(** The collaborator, with its faults among the exceptions of the process. *)
Definition among_raised {E S : Type} (sdk : Collaborator E S)
    : Collaborator (raised E) S :=
  mkCollaborator (fun s c kw =>
    let sr := create sdk s c kw in
    (fst sr,
     match snd sr with
     | inl e => inl (Collab e)
     | inr response => inr response
     end)).

(** [sys.stdout.write(s)] on the byte stream: the bytes of [s], or
    [UnicodeEncodeError] with nothing of [s] written. *)
Definition stdout_write_encoded {E S : Type} (enc : encoder) (s : string)
    : M (raised E) S unit :=
  fun w =>
    match enc s with
    | Some bytes => (write bytes w, inr tt)
    | None => (w, inl (Fault UnicodeEncodeError))
    end.

(** [print(s)] on the byte stream. *)
Definition print_encoded {E S : Type} (enc : encoder) (s : string)
    : M (raised E) S unit :=
  _ <- tick (EvPrint s) ;;
  _ <- stdout_write_encoded enc s ;;
  stdout_write_encoded enc LF.

(** The module body, with standard output as a byte stream. *)
Definition GLM_Example_io {E S : Type} (enc : encoder)
    (sdk : Collaborator E S) (api_key : string) : M (raised E) S unit :=
  client <- ZhipuAiClient api_key ;;
  response <- chat_completions_create (among_raised sdk) client request ;;
  choice <- subscript (choices response) 0 ;;
  print_encoded enc (content (message choice)).

(** One run of the interpreter on the script: the bytes on standard output
    and the way the process ends, or nothing when the interpreter could not
    set up its streams. *)
Definition run_io {E S : Type} (codecs : string -> option encoder)
    (default : list (string * string) -> encoder)
    (sdk : Collaborator E S) (api_key : string)
    (args : list string) (env : list (string * string)) (s0 : S)
    : option (string * (exn (raised E) + unit)) :=
  match stdout_encoder codecs default env with
  | None => None
  | Some enc =>
      let r := GLM_Example_io enc sdk api_key (boot args env s0) in
      Some (stdout (fst r), snd r)
  end.

(** ** Test doubles *)

Module Doubles.

(** A collaborator that answers every call with the same outcome and
    counts the calls it received. *)
Definition canned {E : Type} (r : E + Completion) : Collaborator E nat :=
  mkCollaborator (fun n _ _ => (S n, r)).

(** A collaborator that faults unless the request has the expected model
    name, and echoes the credential it was called with. *)
Definition echo_key : Collaborator string unit :=
  mkCollaborator (fun _ c kw =>
    (tt,
     match dict_get kw "model" with
     | Some (VStr _) =>
         inr (mkCompletion "id-1"
                [mkChoice 0 "stop" (mkMessage "assistant" (client_api_key c))]
                (mkUsage 1 2 3))
     | _ => inl "bad request"
     end)).

Definition one_choice (x : string) : Completion :=
  mkCompletion "cmpl-1" [mkChoice 0 "stop" (mkMessage "assistant" x)]
    (mkUsage 20 5 25).

Definition two_choices (x y : string) : Completion :=
  mkCompletion "cmpl-2"
    [mkChoice 0 "length" (mkMessage "assistant" x);
     mkChoice 1 "stop" (mkMessage "assistant" y)]
    (mkUsage 7 9 16).

Definition no_choice : Completion :=
  mkCompletion "cmpl-0" [] (mkUsage 20 0 20).

Definition greeter : Collaborator string nat :=
  canned (inr (one_choice "Hello")).

Definition chatty : Collaborator string nat :=
  canned (inr (two_choices "Hello" "Goodbye")).

Definition silent : Collaborator string nat :=
  canned (inr no_choice).

Definition unreachable : Collaborator string nat :=
  canned (inl "connection refused").

(** A collaborator that faults on its first call and answers from the
    second on. *)
Definition flaky : Collaborator string nat :=
  mkCollaborator (fun n _ _ =>
    (S n,
     match n with
     | O => inl "rate limited"
     | S _ => inr (one_choice "Hello")
     end)).

(** A collaborator that answers in Chinese. *)
Definition greeter_zh : Collaborator string nat :=
  canned (inr (one_choice "你好")).

(** A codec registry with the two codecs the examples name. *)
Definition two_codecs (name : string) : option encoder :=
  if String.eqb name "ascii" then Some ascii_strict
  else if String.eqb name "utf-8" then Some utf_8
  else None.

(** An interpreter whose default encoder is UTF-8 in every environment. *)
Definition utf_8_default (env : list (string * string)) : encoder := utf_8.

End Doubles.

(** ** Python's subscript on the first element *)

Lemma getitem_0 : forall (A : Type) (l : list A), getitem l 0 = hd_error l.
Proof.
  intros A [|a l]; reflexivity.
Qed.

Lemma getitem_in_range :
  forall (A : Type) (l : list A) (i : Z),
    0 <= i < Z.of_nat (length l) ->
    getitem l i = nth_error l (Z.to_nat i).
Proof.
  intros A l i [Hlo Hhi]. unfold getitem.
  destruct (Z.ltb_spec i 0) as [Hneg|_]; [lia|].
  destruct (Z.leb_spec 0 i) as [_|Hneg]; [|lia].
  destruct (Z.ltb_spec i (Z.of_nat (length l))) as [_|Hbig]; [|lia].
  reflexivity.
Qed.

Lemma getitem_out_of_range :
  forall (A : Type) (l : list A) (i : Z),
    Z.of_nat (length l) <= i \/ i < - Z.of_nat (length l) ->
    getitem l i = None.
Proof.
  intros A l i H. unfold getitem.
  destruct (Z.ltb_spec i 0) as [Hneg|Hpos].
  - destruct (Z.leb_spec 0 (i + Z.of_nat (length l))) as [Hge|_]; [lia|].
    reflexivity.
  - destruct (Z.leb_spec 0 i) as [_|Hneg]; [|lia].
    destruct (Z.ltb_spec i (Z.of_nat (length l))) as [Hlt|_]; [lia|].
    reflexivity.
Qed.

Example getitem_from_the_end : getitem [10; 20; 30] (-1) = Some 30.
Proof. reflexivity. Qed.

Example getitem_past_the_end : getitem [10; 20; 30] 3 = None.
Proof. reflexivity. Qed.

Example getitem_before_the_start : getitem [10; 20; 30] (-4) = None.
Proof. reflexivity. Qed.

(** ** Looking up a name that is no key *)

Lemma dict_get_absent :
  forall (d : list (string * value)) (k : string),
    existsb (String.eqb k) (keys d) = false -> dict_get d k = None.
Proof.
  induction d as [|[k' v] d IH]; intros k H; [reflexivity|].
  cbn in H. apply orb_false_elim in H. destruct H as [Hk Hd].
  cbn. rewrite String.eqb_sym, Hk. apply IH. exact Hd.
Qed.

Lemma dict_get_present :
  forall (d : list (string * value)) (k : string) (v : value),
    dict_get d k = Some v -> In k (keys d).
Proof.
  induction d as [|[k' v'] d IH]; intros k v H; [discriminate|].
  cbn in H. destruct (String.eqb_spec k' k) as [->|_].
  - left. reflexivity.
  - right. apply (IH k v H).
Qed.

(** ** The run in closed form *)

Section RunFacts.

Context {E S : Type}.
Variable sdk : Collaborator E S.
Variable api_key : string.
Variables (args : list string) (env : list (string * string)) (s0 : S).

Local Abbreviation client := (mkClient api_key).
Local Abbreviation s1 := (fst (create sdk s0 client request)).

Lemma run_fault :
  forall e : E,
    snd (create sdk s0 client request) = inl e ->
    run sdk api_key args env s0 =
      (mkWorld args env EmptyString
         [EvConstruct api_key; EvCreate client request] s1,
       inl (Fault e)).
Proof.
  intros e H.
  unfold run, GLM_Example, ZhipuAiClient, chat_completions_create, call,
    tick, bind, ret, raise.
  cbn. rewrite H. reflexivity.
Qed.

Lemma run_response :
  forall response : Completion,
    snd (create sdk s0 client request) = inr response ->
    run sdk api_key args env s0 =
      match hd_error (choices response) with
      | None =>
          (mkWorld args env EmptyString
             [EvConstruct api_key; EvCreate client request; EvSubscript 0] s1,
           inl IndexError)
      | Some choice =>
          (mkWorld args env (content (message choice) ++ LF)
             [EvConstruct api_key; EvCreate client request; EvSubscript 0;
              EvPrint (content (message choice))] s1,
           inr tt)
      end.
Proof.
  intros response H.
  unfold run, GLM_Example, ZhipuAiClient, chat_completions_create, call,
    subscript, print, stdout_write, tick, bind, ret, raise.
  cbn. rewrite H. cbn -[getitem]. rewrite getitem_0.
  destruct (choices response) as [|c l]; reflexivity.
Qed.

(** Whatever the collaborator does, it is called once, with the literal
    request, after the client was constructed. *)
Lemma run_trace_prefix :
  exists rest : list event,
    trace (fst (run sdk api_key args env s0)) =
      EvConstruct api_key :: EvCreate client request :: rest /\
    submitted rest = [] /\
    mock (fst (run sdk api_key args env s0)) = s1.
Proof.
  destruct (snd (create sdk s0 client request)) as [e|response] eqn:H.
  - rewrite (run_fault e H). exists []. repeat split.
  - rewrite (run_response response H).
    destruct (hd_error (choices response)) as [c|].
    + eexists. repeat split.
    + eexists. repeat split.
Qed.

Lemma requests_of_run_eq :
  requests_of_run sdk api_key args env s0 = [request].
Proof.
  unfold requests_of_run.
  destruct run_trace_prefix as (rest & Ht & Hrest & _).
  rewrite Ht. cbn. rewrite Hrest. reflexivity.
Qed.

End RunFacts.

(** ** The recording collaborator *)

Section RecordingFacts.

Context {E S : Type}.
Variable sdk : Collaborator E S.
Variable api_key : string.
Variables (args : list string) (env : list (string * string)) (s0 : S).

(** During a run the collaborator receives one call: the literal request,
    through the client built from the credential. *)
Lemma received_eq :
  received sdk api_key args env s0 = [(mkClient api_key, request)].
Proof.
  unfold received.
  destruct (run_trace_prefix (recording sdk) api_key args env (s0, []))
    as (rest & _ & _ & Hmock).
  rewrite Hmock. reflexivity.
Qed.

(** Recording changes nothing of a run: the same output, the same trace,
    the same ending, and the same state of the collaborator recorded. *)
Lemma recording_transparent :
  stdout (fst (run (recording sdk) api_key args env (s0, []))) =
    stdout (fst (run sdk api_key args env s0)) /\
  trace (fst (run (recording sdk) api_key args env (s0, []))) =
    trace (fst (run sdk api_key args env s0)) /\
  fst (mock (fst (run (recording sdk) api_key args env (s0, [])))) =
    mock (fst (run sdk api_key args env s0)) /\
  snd (run (recording sdk) api_key args env (s0, [])) =
    snd (run sdk api_key args env s0).
Proof.
  destruct (snd (create sdk s0 (mkClient api_key) request))
    as [e|response] eqn:Hcall.
  - rewrite (run_fault sdk api_key args env s0 e Hcall).
    rewrite (run_fault (recording sdk) api_key args env (s0, []) e Hcall).
    repeat split.
  - rewrite (run_response sdk api_key args env s0 response Hcall).
    rewrite (run_response (recording sdk) api_key args env (s0, [])
               response Hcall).
    destruct (hd_error (choices response)); repeat split.
Qed.

(** The trace shows the requests the collaborator received. *)
Lemma received_matches_trace :
  map snd (received sdk api_key args env s0) =
    requests_of_run sdk api_key args env s0.
Proof.
  rewrite received_eq, requests_of_run_eq. reflexivity.
Qed.

End RecordingFacts.

(** ** The byte stream in closed form *)

(** What a run on the byte stream leaves on standard output and how it
    ends, from the encoder and the outcome of the collaborator's call. *)
Lemma GLM_Example_io_result :
  forall (E S : Type) (enc : encoder) (sdk : Collaborator E S)
         (api_key : string) (args : list string)
         (env : list (string * string)) (s0 : S),
    (stdout (fst (GLM_Example_io enc sdk api_key (boot args env s0))),
     snd (GLM_Example_io enc sdk api_key (boot args env s0))) =
      match snd (create sdk s0 (mkClient api_key) request) with
      | inl e => (EmptyString, inl (Fault (Collab e)))
      | inr response =>
          match hd_error (choices response) with
          | None => (EmptyString, inl IndexError)
          | Some choice =>
              match enc (content (message choice)) with
              | None => (EmptyString, inl (Fault UnicodeEncodeError))
              | Some bytes =>
                  match enc LF with
                  | None => (bytes, inl (Fault UnicodeEncodeError))
                  | Some eol => (bytes ++ eol, inr tt)
                  end
              end
          end
      end.
Proof.
  intros E S enc sdk api_key args env s0.
  unfold GLM_Example_io, ZhipuAiClient, chat_completions_create, call,
    subscript, print_encoded, stdout_write_encoded, tick, bind, ret, raise.
  cbn -[getitem].
  destruct (snd (create sdk s0 (mkClient api_key) request)) as [e|response];
    [reflexivity|].
  cbn -[getitem]. rewrite getitem_0.
  destruct (choices response) as [|c l]; [reflexivity|].
  cbn. destruct (enc (content (message c))) as [bytes|]; [|reflexivity].
  cbn. destruct (enc LF) as [eol|]; reflexivity.
Qed.

(** With the UTF-8 encoder the byte stream holds the text of the run. *)
Lemma GLM_Example_io_utf_8 :
  forall (E S : Type) (sdk : Collaborator E S) (api_key : string)
         (args : list string) (env : list (string * string)) (s0 : S),
    stdout (fst (GLM_Example_io utf_8 sdk api_key (boot args env s0))) =
      stdout (fst (run sdk api_key args env s0)) /\
    exits_normally (snd (GLM_Example_io utf_8 sdk api_key (boot args env s0))) =
      exits_normally (snd (run sdk api_key args env s0)).
Proof.
  intros E S sdk api_key args env s0.
  pose proof (GLM_Example_io_result E S utf_8 sdk api_key args env s0) as H.
  pose proof (f_equal fst H) as Hout. pose proof (f_equal snd H) as Hend.
  cbn [fst snd] in Hout, Hend. rewrite Hout, Hend. clear H Hout Hend.
  destruct (snd (create sdk s0 (mkClient api_key) request))
    as [e|response] eqn:Hcall.
  - rewrite (run_fault sdk api_key args env s0 e Hcall). split; reflexivity.
  - rewrite (run_response sdk api_key args env s0 response Hcall).
    destruct (hd_error (choices response)) as [c|]; split; reflexivity.
Qed.

(** ** Runs against the test doubles *)

Example run_greeter :
  run Doubles.greeter "k" ["GLM_Example.py"] [("LANG", "C")] 0%nat =
    (mkWorld ["GLM_Example.py"] [("LANG", "C")] ("Hello" ++ LF)
       [EvConstruct "k"; EvCreate (mkClient "k") request; EvSubscript 0;
        EvPrint "Hello"]
       1%nat,
     inr tt).
Proof. reflexivity. Qed.

Example run_chatty_prints_first_choice_only :
  stdout (fst (run Doubles.chatty "k" [] [] 0%nat)) = "Hello" ++ LF.
Proof. reflexivity. Qed.

Example run_unreachable :
  run Doubles.unreachable "k" [] [] 3%nat =
    (mkWorld [] [] EmptyString
       [EvConstruct "k"; EvCreate (mkClient "k") request] 4%nat,
     inl (Fault "connection refused")).
Proof. reflexivity. Qed.

Example run_flaky_is_not_retried :
  run Doubles.flaky "k" [] [] 0%nat =
    (mkWorld [] [] EmptyString
       [EvConstruct "k"; EvCreate (mkClient "k") request] 1%nat,
     inl (Fault "rate limited")).
Proof. reflexivity. Qed.

Example run_echo_key_sees_model_and_credential :
  stdout (fst (run Doubles.echo_key "credential" [] [] tt)) =
    "credential" ++ LF.
Proof. reflexivity. Qed.

(** ** The request the script submits *)

(** C2: in every run the collaborator receives exactly one request, and its
    [messages] argument is a list of exactly two messages, in this order:
    the one with role [system], then the one with role [user], each with the
    content literal of the source. *)
Theorem request_messages_system_then_user :
  forall (E S : Type) (sdk : Collaborator E S) (api_key : string)
         (args : list string) (env : list (string * string)) (s0 : S),
    map (fun rq => dict_get (snd rq) "messages")
        (received sdk api_key args env s0) =
      [ Some (VList [
          VDict [("role", VStr "system");
                 ("content", VStr "你是一个有用的AI助手。")];
          VDict [("role", VStr "user");
                 ("content", VStr "你好，请介绍一下自己。")] ]) ].
Proof.
  intros. rewrite received_eq. reflexivity.
Qed.

(** C5: in every run the [model] argument of the one request the
    collaborator receives is the string [glm-4.7]. *)
Theorem request_model_is_glm_4_7 :
  forall (E S : Type) (sdk : Collaborator E S) (api_key : string)
         (args : list string) (env : list (string * string)) (s0 : S),
    map (fun rq => dict_get (snd rq) "model")
        (received sdk api_key args env s0) =
      [ Some (VStr "glm-4.7") ].
Proof.
  intros. rewrite received_eq. reflexivity.
Qed.

(** C6: in every run the [temperature] argument of the one request the
    collaborator receives is the binary64 value of the literal [0.6]: the
    float 5404319552844595 * 2^-53, which is within half a unit in the last
    place of the decimal 6/10 and lies between 0 and 1 (as a float and as a
    rational). *)
#[warnings="-inexact-float"]
Theorem request_temperature_is_0_6 :
  forall (E S : Type) (sdk : Collaborator E S) (api_key : string)
         (args : list string) (env : list (string * string)) (s0 : S),
    map (fun rq => dict_get (snd rq) "temperature")
        (received sdk api_key args env s0) =
      [ Some (VFloat 0.6%float) ] /\
    (PrimFloat.leb 0 temperature && PrimFloat.leb temperature 1 = true)%float /\
    Prim2SF temperature = S754_finite false 5404319552844595 (-53) /\
    exists q : Q,
      float_to_Q temperature = Some q /\
      (Qabs (q - (6 # 10)) <= 1 # (2 ^ 54))%Q /\
      (0 <= q <= 1)%Q.
Proof.
  intros. rewrite received_eq. repeat split.
  exists (5404319552844595 # (2 ^ 53)). repeat split; vm_compute; congruence.
Qed.

(** C9: in every run the one request the collaborator receives carries the
    keyword arguments [model], [messages] and [temperature], each once, and
    no other: looking up any other name finds nothing, in particular not
    [stream], [max_tokens], [top_p] or [tools]. *)
Theorem request_has_exactly_three_fields :
  forall (E S : Type) (sdk : Collaborator E S) (api_key : string)
         (args : list string) (env : list (string * string)) (s0 : S),
    map (fun rq => keys (snd rq)) (received sdk api_key args env s0) =
      [ ["model"; "messages"; "temperature"] ] /\
    (forall k : string,
       existsb (String.eqb k) ["model"; "messages"; "temperature"] = false ->
       map (fun rq => dict_get (snd rq) k)
           (received sdk api_key args env s0) = [None]) /\
    map (fun rq =>
           map (dict_get (snd rq)) ["stream"; "max_tokens"; "top_p"; "tools"])
        (received sdk api_key args env s0) =
      [ [None; None; None; None] ].
Proof.
  intros. rewrite received_eq. repeat split.
  intros k Hk. cbn [map snd]. rewrite dict_get_absent; [reflexivity | exact Hk].
Qed.

(** ** What a run prints and how it ends *)



(** C3: when the collaborator's call signals a fault [e], the run ends with
    that very fault, no subscript access was performed, and standard output
    is empty. *)
Theorem collaborator_fault_propagates :
  forall (E S : Type) (sdk : Collaborator E S) (api_key : string)
         (args : list string) (env : list (string * string)) (s0 : S) (e : E),
    snd (create sdk s0 (mkClient api_key) request) = inl e ->
    snd (run sdk api_key args env s0) = inl (Fault e) /\
    subscripts (trace (fst (run sdk api_key args env s0))) = [] /\
    stdout (fst (run sdk api_key args env s0)) = EmptyString.
Proof.
  intros E S sdk api_key args env s0 e Hcall.
  rewrite (run_fault sdk api_key args env s0 e Hcall).
  repeat split.
Qed.

Lemma collaborator_fault_propagates_witness :
  snd (create Doubles.unreachable 0%nat (mkClient "k") request) =
    inl "connection refused" /\
  snd (run Doubles.unreachable "k" [] [] 0%nat) =
    inl (Fault "connection refused") /\
  subscripts (trace (fst (run Doubles.unreachable "k" [] [] 0%nat))) = [] /\
  stdout (fst (run Doubles.unreachable "k" [] [] 0%nat)) = EmptyString.
Proof.
  split; [reflexivity|].
  apply (collaborator_fault_propagates string nat Doubles.unreachable "k"
           [] [] 0%nat "connection refused").
  reflexivity.
Defined.

(** C4: when the collaborator's call returns a response with no choice,
    subscript 0 is outside the sequence, the run ends with [IndexError] (the
    script handles nothing), and standard output is empty. *)
Theorem empty_choices_raise_IndexError :
  forall (E S : Type) (sdk : Collaborator E S) (api_key : string)
         (args : list string) (env : list (string * string)) (s0 : S)
         (response : Completion),
    snd (create sdk s0 (mkClient api_key) request) = inr response ->
    choices response = [] ->
    getitem (choices response) 0 = None /\
    snd (run sdk api_key args env s0) = inl IndexError /\
    stdout (fst (run sdk api_key args env s0)) = EmptyString.
Proof.
  intros E S sdk api_key args env s0 response Hcall Hchoices.
  rewrite (run_response sdk api_key args env s0 response Hcall), Hchoices.
  repeat split.
Qed.

Lemma empty_choices_raise_IndexError_witness :
  snd (create Doubles.silent 0%nat (mkClient "k") request) =
    inr Doubles.no_choice /\
  choices Doubles.no_choice = [] /\
  getitem (choices Doubles.no_choice) 0 = None /\
  snd (run Doubles.silent "k" [] [] 0%nat) = inl IndexError /\
  stdout (fst (run Doubles.silent "k" [] [] 0%nat)) = EmptyString.
Proof.
  split; [reflexivity|]. split; [reflexivity|].
  apply (empty_choices_raise_IndexError string nat Doubles.silent "k"
           [] [] 0%nat Doubles.no_choice); reflexivity.
Defined.

(** C7: whatever the collaborator does, a run calls its chat-completion
    operation exactly once (one request in the trace, and the collaborator's
    state is the one after a single call), and the steps performed are an
    initial part of construct, submit, extract, print, in this order and
    each at most once: all four when the run ends normally, three when the
    subscript raises, two when the collaborator faults. *)
Theorem collaborator_called_exactly_once :
  forall (E S : Type) (sdk : Collaborator E S) (api_key : string)
         (args : list string) (env : list (string * string)) (s0 : S),
    submitted (trace (fst (run sdk api_key args env s0))) =
      [(mkClient api_key, request)] /\
    mock (fst (run sdk api_key args env s0)) =
      fst (create sdk s0 (mkClient api_key) request) /\
    map step_of (trace (fst (run sdk api_key args env s0))) =
      firstn (steps_reached (snd (run sdk api_key args env s0)))
        [Construct; Submit; Extract; Print].
Proof.
  intros E S sdk api_key args env s0.
  destruct (snd (create sdk s0 (mkClient api_key) request))
    as [e|response] eqn:Hcall.
  - rewrite (run_fault sdk api_key args env s0 e Hcall). repeat split.
  - rewrite (run_response sdk api_key args env s0 response Hcall).
    destruct (hd_error (choices response)); repeat split.
Qed.



(** C10, as the code has it: two runs against the same collaborator
    behaviour (the call returns the same response or signals the same fault)
    whose standard output has the same encoder leave the same bytes on
    standard output and end the same way, whatever the command line, the
    rest of the environment and the collaborator's private state of each
    run. *)
Theorem run_io_determined_by_behaviour_and_encoder :
  forall (E S1 S2 : Type)
         (codecs : string -> option encoder)
         (default : list (string * string) -> encoder)
         (sdk1 : Collaborator E S1) (sdk2 : Collaborator E S2)
         (api_key : string)
         (args1 args2 : list string) (env1 env2 : list (string * string))
         (s1 : S1) (s2 : S2),
    snd (create sdk1 s1 (mkClient api_key) request) =
      snd (create sdk2 s2 (mkClient api_key) request) ->
    stdout_encoder codecs default env1 = stdout_encoder codecs default env2 ->
    run_io codecs default sdk1 api_key args1 env1 s1 =
      run_io codecs default sdk2 api_key args2 env2 s2.
Proof.
  intros E S1 S2 codecs default sdk1 sdk2 api_key args1 args2 env1 env2
    s1 s2 Hsame Henc.
  unfold run_io. rewrite Henc.
  destruct (stdout_encoder codecs default env2) as [enc|]; [|reflexivity].
  cbv zeta. rewrite !GLM_Example_io_result, Hsame. reflexivity.
Qed.

Lemma run_io_determined_by_behaviour_and_encoder_witness :
  snd (create Doubles.greeter_zh 0%nat (mkClient "k") request) =
    snd (create Doubles.greeter_zh 41%nat (mkClient "k") request) /\
  stdout_encoder Doubles.two_codecs Doubles.utf_8_default
      [("PYTHONIOENCODING", "ascii"); ("HOME", "/root")] =
    stdout_encoder Doubles.two_codecs Doubles.utf_8_default
      [("LANG", "C"); ("PYTHONIOENCODING", "ascii")] /\
  run_io Doubles.two_codecs Doubles.utf_8_default Doubles.greeter_zh "k"
      [] [("PYTHONIOENCODING", "ascii"); ("HOME", "/root")] 0%nat =
    run_io Doubles.two_codecs Doubles.utf_8_default Doubles.greeter_zh "k"
      ["--stream"; "x"] [("LANG", "C"); ("PYTHONIOENCODING", "ascii")] 41%nat.
Proof.
  split; [reflexivity|]. split; [reflexivity|].
  apply (run_io_determined_by_behaviour_and_encoder string nat nat
           Doubles.two_codecs Doubles.utf_8_default
           Doubles.greeter_zh Doubles.greeter_zh "k" [] ["--stream"; "x"]
           [("PYTHONIOENCODING", "ascii"); ("HOME", "/root")]
           [("LANG", "C"); ("PYTHONIOENCODING", "ascii")] 0%nat 41%nat);
    reflexivity.
Defined.

(** C10 as stated fails: the same collaborator, in the same state, answers
    two runs that differ in one environment variable only.  With
    [PYTHONIOENCODING=utf-8] the reply is printed and the process ends
    normally; with [PYTHONIOENCODING=ascii] nothing is printed and the
    process ends with [UnicodeEncodeError]. *)
Lemma environment_variable_changes_the_result :
  snd (create Doubles.greeter_zh 0%nat (mkClient "k") request) =
    snd (create Doubles.greeter_zh 0%nat (mkClient "k") request) /\
  run_io Doubles.two_codecs Doubles.utf_8_default Doubles.greeter_zh "k"
      [] [("PYTHONIOENCODING", "utf-8")] 0%nat =
    Some ("你好" ++ LF, inr tt) /\
  run_io Doubles.two_codecs Doubles.utf_8_default Doubles.greeter_zh "k"
      [] [("PYTHONIOENCODING", "ascii")] 0%nat =
    Some (EmptyString, inl (Fault UnicodeEncodeError)) /\
  (run_io Doubles.two_codecs Doubles.utf_8_default Doubles.greeter_zh "k"
       [] [("PYTHONIOENCODING", "utf-8")] 0%nat =
   run_io Doubles.two_codecs Doubles.utf_8_default Doubles.greeter_zh "k"
       [] [("PYTHONIOENCODING", "ascii")] 0%nat -> False).
Proof.
  repeat split. intros H. vm_compute in H. discriminate H.
Qed.

(** ** Beyond a single choice: the first choice, the ways a run ends, and
    what is left on standard output *)

Lemma append_LF_not_empty : forall x : string, x ++ LF <> EmptyString.
Proof.
  intros [|a x]; discriminate.
Qed.





(** X3: standard output is empty exactly when the run ends abnormally.  A
    failed run leaves no partial output, and a successful one always leaves
    at least the line feed, also when the content printed is the empty
    string. *)
Theorem stdout_empty_iff_abnormal_end :
  forall (E S : Type) (sdk : Collaborator E S) (api_key : string)
         (args : list string) (env : list (string * string)) (s0 : S),
    stdout (fst (run sdk api_key args env s0)) = EmptyString <->
    exits_normally (snd (run sdk api_key args env s0)) = false.
Proof.
  intros E S sdk api_key args env s0.
  destruct (snd (create sdk s0 (mkClient api_key) request))
    as [e|response] eqn:Hcall.
  - rewrite (run_fault sdk api_key args env s0 e Hcall). cbn.
    split; reflexivity.
  - rewrite (run_response sdk api_key args env s0 response Hcall).
    destruct (hd_error (choices response)) as [c|]; cbn.
    + split; [|discriminate].
      intros H. destruct (append_LF_not_empty _ H).
    + split; reflexivity.
Qed.

Example run_empty_content_prints_a_blank_line :
  run (Doubles.canned (E := string) (inr (Doubles.one_choice EmptyString)))
      "k" [] [] 0%nat =
    (mkWorld [] [] LF
       [EvConstruct "k"; EvCreate (mkClient "k") request; EvSubscript 0;
        EvPrint EmptyString]
       1%nat,
     inr tt).
Proof. reflexivity. Qed.
